(** * express-jwt-protected-routes: the request gate and the login route

    A shallow embedding of [server.js].  JavaScript values are an inductive
    type, objects are finite maps from property names to values, the two
    calls into the [jsonwebtoken] package are parameters of the server, and
    what a request does besides answering (calling the verifier, running the
    route handler) is recorded in a trace of events. *)

From Stdlib Require Import ZArith Bool Ascii String List Lia.
From stdpp Require Import base option strings gmap.

Import ListNotations.
Local Open Scope string_scope.
Local Open Scope Z_scope.

(** ** JavaScript values *)

(** The values the handlers see: what [express.json()] parses from a body,
    what [jwt.verify] decodes, and the object literals the handlers pass to
    [res.json].  Numbers are the integral ones; the handlers only ever test a
    number for being zero. *)
#[warnings="-register-all"]
Inductive JsValue : Type :=
| JUndefined
| JNull
| JBool (b : bool)
| JNum (n : Z)
| JStr (s : string)
| JArr (items : list JsValue)
| JObj (fields : gmap string JsValue).

Abbreviation JsObject := (gmap string JsValue).

(** [!v] is [negb (truthy v)]: the falsy values are [undefined], [null],
    [false], [0] and the empty string. *)
Definition truthy (v : JsValue) : bool :=
  match v with
  | JUndefined | JNull => false
  | JBool b => b
  | JNum n => negb (n =? 0)
  | JStr s => negb (String.eqb s "")
  | JArr _ | JObj _ => true
  end.

(** The falsy values, one by one. *)
Definition falsy_value (v : JsValue) : Prop :=
  v = JUndefined \/ v = JNull \/ v = JBool false \/ v = JNum 0 \/ v = JStr "".

(** [v === 'lit']: strict equality with a string literal holds for that
    string only. *)
Definition strict_eq_str (v : JsValue) (lit : string) : bool :=
  match v with
  | JStr s => String.eqb s lit
  | _ => false
  end.

(** [o.k] on an object: the property's value, [undefined] when absent. *)
Definition prop (o : JsObject) (k : string) : JsValue :=
  default JUndefined (o !! k).

(** ** Requests, responses and the [jsonwebtoken] interface *)

(** What [jwt.verify(token, secret)] hands back: the decoded payload, an
    object, or a string when the token carries a string payload. *)
Inductive Decoded : Type :=
| DecodedObject (payload : JsObject)
| DecodedString (payload : string).

(** [decoded.k] for the property names the handlers read ([id], [username],
    [email]); a string has none of them. *)
Definition member (d : Decoded) (k : string) : JsValue :=
  match d with
  | DecodedObject o => prop o k
  | DecodedString _ => JUndefined
  end.

(** [jwt.verify] returns or throws; the [catch] block looks at [error.name]
    only. *)
Inductive VerifyResult : Type :=
| Returned (decoded : Decoded)
| Thrown (name : string).

(** [req]: the header object (Node lower-cases the names), the object that
    [express.json()] leaves in [req.body] (empty when the request carries
    none), and the [user] property the gate sets. *)
Record Request : Type := mkRequest {
  headers : gmap string string;
  body : JsObject;
  user : option Decoded
}.

(** [res.status(code).json(obj)]. *)
Record Response : Type := mkResponse {
  status : Z;
  json : JsObject
}.

Inductive Route : Type := Profile | UserData.

(** What a protected request does besides answering. *)
Inductive Event : Type :=
| VerifyCalled (token secret : string)
| HandlerRan (route : Route) (req : Request).

(** The gate either answers itself or calls [next()] with the request. *)
Inductive Gate : Type :=
| Reply (res : Response)
| Next (req : Request).

Definition message (code : Z) (text : string) : Response :=
  mkResponse code {[ "message" := JStr text ]}.

(** [authHeader.slice(7)]. *)
Fixpoint slice (n : nat) (s : string) : string :=
  match n, s with
  | O, _ => s
  | S n', String _ rest => slice n' rest
  | S _, EmptyString => EmptyString
  end.

(** [authHeader.startsWith(p)]. *)
Definition startsWith (p s : string) : bool := String.prefix p s.

(** [!s] for [s] a string or absent ([undefined], [null]). *)
Definition falsy (s : option string) : bool :=
  match s with
  | None => true
  | Some s => String.eqb s ""
  end.

(** [authHeader.startsWith('Bearer ') ? authHeader.slice(7) : null]. *)
Definition bearer (authHeader : string) : option string :=
  if startsWith "Bearer " authHeader then Some (slice 7 authHeader) else None.

(** How the [catch] block of the gate answers an error, by its name. *)
Definition rejection (name : string) : Response :=
  if String.eqb name "TokenExpiredError" then message 401 "Token has expired"
  else if String.eqb name "JsonWebTokenError" then message 401 "Invalid token"
  else message 401 "Token verification failed".

(** [DEMO_USER]. *)
Record User : Type := mkUser {
  id : Z;
  username : string;
  password : string;
  email : string
}.

Definition DEMO_USER : User :=
  mkUser 1 "admin" "password123" "admin@example.com".

Definition default_secret : string := "your_secret_key_change_in_production".

(** [process.env.JWT_SECRET || 'your_secret_key_change_in_production']. *)
Definition JWT_SECRET (env : gmap string string) : string :=
  match env !! "JWT_SECRET" with
  | Some s => if String.eqb s "" then default_secret else s
  | None => default_secret
  end.

(** The line about the secret that [app.listen]'s callback logs. *)
Definition secret_notice (env : gmap string string) : string :=
  "JWT_SECRET: " ++
  (if String.eqb (JWT_SECRET env) "your_secret_key_change_in_production"
   then "USING DEFAULT (CHANGE THIS!)"
   else "Using environment variable").

(** ** The server *)

Section Server.

(** [jwt.sign(payload, secret, { expiresIn })] and
    [jwt.verify(token, secret)] of the [jsonwebtoken] package; both read
    the clock, which is passed as their last argument. *)
Variable jwt_sign : JsObject -> string -> string -> Z -> string.
Variable jwt_verify : string -> string -> Z -> VerifyResult.

(** [new Date().toISOString()] at a clock reading. *)
Variable toISOString : Z -> string.

(** [process.env]. *)
Variable env : gmap string string.

(** The JWT verification middleware.  The trace lists the calls of
    [jwt.verify]. *)
Definition verifyToken (req : Request) (now : Z) : list Event * Gate :=
  let authHeader := headers req !! "authorization" in
  if falsy authHeader
  then ([], Reply (message 401 "No token provided"))
  else
    let token := authHeader ≫= bearer in
    if falsy token
    then ([], Reply (message 401 "Invalid token format. Use Bearer <token>"))
    else
      let t := default "" token in
      ([VerifyCalled t (JWT_SECRET env)],
       match jwt_verify t (JWT_SECRET env) now with
       | Returned decoded =>
         Next (mkRequest (headers req) (body req) (Some decoded))
       | Thrown name => Reply (rejection name)
       end).

(** The payload the login route signs. *)
Definition login_payload : JsObject :=
  {[ "id" := JNum (id DEMO_USER);
     "username" := JStr (username DEMO_USER);
     "email" := JStr (email DEMO_USER) ]}.

(** [POST /api/login]. *)
Definition login (req : Request) (now : Z) : Response :=
  let username_ := prop (body req) "username" in
  let password_ := prop (body req) "password" in
  if negb (truthy username_) || negb (truthy password_)
  then message 400 "Username and password are required"
  else if strict_eq_str username_ (username DEMO_USER)
          && strict_eq_str password_ (password DEMO_USER)
  then
    let token := jwt_sign login_payload (JWT_SECRET env) "1h" now in
    mkResponse 200 {[ "message" := JStr "Login successful";
                      "token" := JStr token ]}
  else message 401 "Invalid credentials".

(** The global error handler, reached when a route handler throws. *)
Definition errorHandler (err_message : string) : Response :=
  mkResponse 500
    {[ "message" := JStr "Internal server error";
       "error" := match env !! "NODE_ENV" with
                  | Some "development" => JStr err_message
                  | _ => JUndefined
                  end ]}.

(** The handler of [GET /api/profile]; [None] when [req.user] is not set
    and reading a property of it throws. *)
Definition profileHandler (req : Request) : option Response :=
  match user req with
  | Some u =>
    Some (mkResponse 200
      {[ "message" := JStr "User profile data";
         "user" := JObj {[ "id" := member u "id";
                           "username" := member u "username";
                           "email" := member u "email" ]} ]})
  | None => None
  end.

(** The handler of [GET /api/user-data]. *)
Definition userDataHandler (req : Request) (now : Z) : option Response :=
  match user req with
  | Some u =>
    Some (mkResponse 200
      {[ "message" := JStr "This is protected user data";
         "data" := JObj {[ "userId" := member u "id";
                           "accessLevel" := JStr "admin";
                           "lastAccessed" := JStr (toISOString now) ]} ]})
  | None => None
  end.

Definition handler (route : Route) (req : Request) (now : Z) : option Response :=
  match route with
  | Profile => profileHandler req
  | UserData => userDataHandler req now
  end.

(** [app.get(path, verifyToken, handler)]: the gate, then the handler if
    the gate called [next()]. *)
Definition protected (route : Route) (req : Request) (now : Z)
  : list Event * Response :=
  match verifyToken req now with
  | (tr, Reply res) => (tr, res)
  | (tr, Next req') =>
    ((tr ++ [HandlerRan route req'])%list,
     match handler route req' now with
     | Some res => res
     | None => errorHandler "Cannot read properties of undefined"
     end)
  end.

End Server.

(** ** The token protocol *)

Module Jwt.

(** Modelled from the spec: [jwt.sign] and [jwt.verify] belong to the
    [jsonwebtoken] package, whose code is not part of the repository's
    sources.  The definitions of this module follow the spec's data model
    (Identity Claims, Token, Expiry), its Token Issuer and Token Verifier
    contracts and its token format: three dot-separated segments, the
    third one the MAC of the first two under the shared secret.  Instants
    are whole seconds. *)
Record IdentityClaims : Type := mkClaims {
  subjectId : Z;
  username : string;
  email : string
}.

Record Header : Type := mkHeader { alg : string }.

(** Claims-with-expiry, the second segment. *)
Record Payload : Type := mkPayload {
  claims : IdentityClaims;
  expiry : Z
}.

Inductive VerifyError : Type := InvalidToken | TokenExpired.

Inductive Result : Type :=
| Ok (c : IdentityClaims)
| Err (e : VerifyError).

(** A segment holds no dot. *)
Fixpoint nodot (s : string) : bool :=
  match s with
  | EmptyString => true
  | String c rest => negb (Ascii.eqb c ".") && nodot rest
  end.

(** The dot-separated segments of a token. *)
Fixpoint segments (s : string) : list string :=
  match s with
  | EmptyString => [EmptyString]
  | String c rest =>
    if Ascii.eqb c "."
    then EmptyString :: segments rest
    else match segments rest with
         | seg :: segs => String c seg :: segs
         | [] => [String c EmptyString]
         end
  end.

(** The encoding of a segment and the MAC giving the text of the third
    segment; what is asked of them is stated by [SegmentLaws] and
    [MacLaws]. *)
Class Segment (A : Type) : Type := {
  seg_encode : A -> string;
  seg_decode : string -> option A
}.

Class Mac : Type := { mac : string -> string -> string }.

(** A segment is text without a dot that decodes to what was encoded. *)
Class SegmentLaws (A : Type) {codec : Segment A} : Prop := {
  seg_decode_encode : forall x : A, seg_decode (seg_encode x) = Some x;
  seg_nodot : forall x : A, nodot (seg_encode x) = true
}.

Class MacLaws {signer : Mac} : Prop := {
  mac_nodot : forall secret text, nodot (mac secret text) = true
}.

(** Modelled from the spec: the invariant of the Token, "any alteration to
    header or claims invalidates the signature under the same secret", and
    the rule that tokens of another secret never verify, as a law of the
    MAC: two MACs are the same only for the same secret and the same
    text. *)
Class MacCollisionFree {signer : Mac} : Prop := {
  mac_inj : forall secret secret' text text',
      mac secret text = mac secret' text' -> secret = secret' /\ text = text'
}.

Section Protocol.

Context {header_segment : Segment Header}.
Context {payload_segment : Segment Payload}.
Context {signer : Mac}.

(** The fixed validity window, one hour. *)
Definition validity_window : Z := 3600.

(** The header fixes the signing algorithm. *)
Definition fixed_header : Header := mkHeader "HS256".

(** The canonical unsigned representation. *)
Definition unsigned (h p : string) : string := h ++ "." ++ p.

(** Modelled from the spec: [jwt.sign] as the Token Issuer,
    [issue(claims) -> Token], a function of the claims, the secret and
    the current time. *)
Definition issue (c : IdentityClaims) (secret : string) (now : Z) : string :=
  let u := unsigned (seg_encode fixed_header)
                    (seg_encode (mkPayload c (now + validity_window))) in
  u ++ "." ++ mac secret u.

(** Modelled from the spec: [jwt.verify] as the Token Verifier,
    [verify(token) -> Result<IdentityClaims, VerifyError>], a function of
    the token, the secret and the current time. *)
Definition verify (token : string) (secret : string) (now : Z) : Result :=
  match segments token with
  | [h; p; signature] =>
    match seg_decode (A := Header) h, seg_decode (A := Payload) p with
    | Some _, Some body =>
      if String.eqb signature (mac secret (unsigned h p))
      then if expiry body <=? now then Err TokenExpired else Ok (claims body)
      else Err InvalidToken
    | _, _ => Err InvalidToken
    end
  | _ => Err InvalidToken
  end.

(** The token has three segments, the first two decode, and the third
    is the MAC of the first two under the secret. *)
Definition well_signed (token : string) (secret : string) : bool :=
  match segments token with
  | [h; p; signature] =>
    match seg_decode (A := Header) h, seg_decode (A := Payload) p with
    | Some _, Some _ => String.eqb signature (mac secret (unsigned h p))
    | _, _ => false
    end
  | _ => false
  end.

(** The expiry a token embeds, when its second segment decodes. *)
Definition embedded_expiry (token : string) : option Z :=
  match segments token with
  | [_; p; _] => expiry <$> seg_decode (A := Payload) p
  | _ => None
  end.

End Protocol.

(** *** The model as the server's [jsonwebtoken]

    [server.js] hands [jwt.sign] an object and reads properties of what
    [jwt.verify] returns, where the issuer and the verifier above work on
    claims records.  The two are tied together here: the object of a claims
    record has the property names of the payload of [server.js], and the
    window is the fixed one, which is what [server.js] asks for with
    [expiresIn: '1h']. *)

(** The payload object of a claims record, and back. *)
Definition payload_of_claims (c : IdentityClaims) : JsObject :=
  {[ "id" := JNum (subjectId c);
     "username" := JStr (username c);
     "email" := JStr (email c) ]}.

Definition claims_of_payload (o : JsObject) : option IdentityClaims :=
  match o !! "id", o !! "username", o !! "email" with
  | Some (JNum i), Some (JStr u), Some (JStr e) => Some (mkClaims i u e)
  | _, _, _ => None
  end.

(** The [name] of the error [jwt.verify] throws for a failure. *)
Definition error_name (e : VerifyError) : string :=
  match e with
  | InvalidToken => "JsonWebTokenError"
  | TokenExpired => "TokenExpiredError"
  end.

Definition jwt_sign `{Segment Header, Segment Payload, Mac}
    (payload : JsObject) (secret expiresIn : string) (now : Z) : string :=
  match claims_of_payload payload with
  | Some c => issue c secret now
  | None => EmptyString
  end.

Definition jwt_verify `{Segment Header, Segment Payload, Mac}
    (token secret : string) (now : Z) : VerifyResult :=
  match verify token secret now with
  | Ok c => Returned (DecodedObject (payload_of_claims c))
  | Err e => Thrown (error_name e)
  end.

(** *** One codec and one MAC

    Segments written as the binary digits of a code of the value, and a
    MAC that writes down the pair of its arguments the same way. *)
Fixpoint bits (p : positive) : string :=
  match p with
  | xH => EmptyString
  | xO q => String "0" (bits q)
  | xI q => String "1" (bits q)
  end.

Fixpoint unbits (s : string) : option positive :=
  match s with
  | EmptyString => Some xH
  | String c rest =>
    if Ascii.eqb c "0" then xO <$> unbits rest
    else if Ascii.eqb c "1" then xI <$> unbits rest
    else None
  end.

Definition bits_segment {A B : Type} `{Countable B}
    (to : A -> B) (from : B -> A) : Segment A :=
  {| seg_encode x := bits (encode (to x));
     seg_decode s := from <$> (unbits s ≫= decode) |}.

Definition bits_header : Segment Header := bits_segment alg mkHeader.

Definition bits_payload : Segment Payload :=
  bits_segment
    (fun p => (subjectId (claims p), username (claims p),
               email (claims p), expiry p))
    (fun '(i, u, e, x) => mkPayload (mkClaims i u e) x).

Definition bits_mac : Mac :=
  {| mac secret text := bits (encode (secret, text)) |}.

(** The server's two parameters, with this codec and this MAC. *)
Definition sign_bits : JsObject -> string -> string -> Z -> string :=
  @jwt_sign bits_header bits_payload bits_mac.

Definition verify_bits : string -> string -> Z -> VerifyResult :=
  @jwt_verify bits_header bits_payload bits_mac.

End Jwt.

(** ** The claims in the spec's words

    Three claims of the spec differ from the code; they are written down
    here as the spec has them, for one request, to be compared with what the
    code does. *)

(** "Missing or empty": no such property, [null], or the empty string. *)
Definition missing_or_empty (v : JsValue) : Prop :=
  v = JUndefined \/ v = JNull \/ v = JStr "".

(** The answer of a successful login. *)
Definition login_successful (token : string) : Response :=
  mkResponse 200 {[ "message" := JStr "Login successful";
                    "token" := JStr token ]}.

(** The answer of [GET /api/profile] for a user object. *)
Definition profile_of (user_ : JsObject) : Response :=
  mkResponse 200 {[ "message" := JStr "User profile data";
                    "user" := JObj user_ ]}.

(** Carrier extraction: NoTokenProvided when the header is absent,
    MalformedCarrier when it is present and does not start with "Bearer ",
    otherwise the text after the prefix goes to the verifier. *)
Definition carrier_extraction_as_specified
    (jwt_verify : string -> string -> Z -> VerifyResult)
    (env : gmap string string) (req : Request) (now : Z) : Prop :=
  (headers req !! "authorization" = None ->
   verifyToken jwt_verify env req now =
     ([], Reply (message 401 "No token provided")))
  /\ (forall h, headers req !! "authorization" = Some h ->
        startsWith "Bearer " h = false ->
        verifyToken jwt_verify env req now =
          ([], Reply (message 401 "Invalid token format. Use Bearer <token>")))
  /\ (forall h, headers req !! "authorization" = Some h ->
        startsWith "Bearer " h = true ->
        fst (verifyToken jwt_verify env req now) =
          [VerifyCalled (slice 7 h) (JWT_SECRET env)]).

(** Login classification: 400 exactly when a field is missing or empty, 200
    exactly for the valid credential, 401 in every other case. *)
Definition login_as_specified
    (jwt_sign : JsObject -> string -> string -> Z -> string)
    (env : gmap string string) (req : Request) (now : Z) : Prop :=
  let u := prop (body req) "username" in
  let p := prop (body req) "password" in
  let res := login jwt_sign env req now in
  (res = message 400 "Username and password are required"
     <-> missing_or_empty u \/ missing_or_empty p)
  /\ ((exists token, res = login_successful token)
     <-> u = JStr "admin" /\ p = JStr "password123")
  /\ (res = message 401 "Invalid credentials"
     <-> ~ (missing_or_empty u \/ missing_or_empty p) /\
         ~ (u = JStr "admin" /\ p = JStr "password123")).


(** ** Sample requests *)

Definition admin_claims : Jwt.IdentityClaims :=
  Jwt.mkClaims 1 "admin" "admin@example.com".

Definition login_request (username_ password_ : JsValue) : Request :=
  mkRequest ∅ {[ "username" := username_; "password" := password_ ]} None.

Definition bearer_request (authorization : string) : Request :=
  mkRequest {[ "authorization" := authorization ]} ∅ None.

(** The token of a login at time 0, under the default secret. *)
Definition sample_token : string :=
  Jwt.sign_bits (Jwt.payload_of_claims admin_claims) default_secret "1h" 0.

Definition epoch (_ : Z) : string := "1970-01-01T00:00:00.000Z".

(** A verifier that decodes every token to a string payload. *)
Definition string_payload : string -> string -> Z -> VerifyResult :=
  fun _ _ _ => Returned (DecodedString "hello").

(** A request with the Authorization header of [bearer_request], another
    header and a body. *)
Definition busy_request (authorization : string) : Request :=
  mkRequest {[ "authorization" := authorization; "accept" := "*/*" ]}
            {[ "username" := JStr "admin" ]} None.

(** * Properties *)

(** ** Strings and values *)

Lemma slice_app (p s : string) : slice (String.length p) (p ++ s) = s.
Proof. induction p as [|c p IH]; simpl; [reflexivity | exact IH]. Qed.

Lemma append_assoc (a b c : string) : (a ++ b) ++ c = a ++ b ++ c.
Proof.
  induction a as [|x a IH]; [reflexivity|].
  change (String x ((a ++ b) ++ c) = String x (a ++ b ++ c)).
  f_equal. exact IH.
Qed.

Lemma app_inv_prefix (p s s' : string) : p ++ s = p ++ s' -> s = s'.
Proof.
  intros E. apply (f_equal (slice (String.length p))) in E.
  rewrite !slice_app in E. exact E.
Qed.

Lemma startsWith_app (p s : string) : startsWith p (p ++ s) = true.
Proof.
  unfold startsWith. induction p as [|c p IH]; simpl.
  - destruct s; reflexivity.
  - destruct (ascii_dec c c) as [_|Hne]; [exact IH | congruence].
Qed.

Lemma startsWith_inv (p s : string) :
  startsWith p s = true -> s = p ++ slice (String.length p) s.
Proof.
  unfold startsWith. revert s. induction p as [|c p IH]; intros s H; simpl in *.
  - reflexivity.
  - destruct s as [|d s]; simpl in H; [discriminate|].
    destruct (ascii_dec c d) as [->|_]; [|discriminate].
    change (String d s = String d (p ++ slice (String.length p) s)).
    f_equal. apply IH, H.
Qed.

(** The falsy values, one by one. *)
Lemma truthy_false (v : JsValue) :
  truthy v = false <-> falsy_value v.
Proof.
  unfold falsy_value. split.
  - destruct v as [| |b|n|s| |]; simpl; intros H; try discriminate; auto.
    + destruct b; [discriminate | auto].
    + apply negb_false_iff, Z.eqb_eq in H. subst. auto 10.
    + apply negb_false_iff, String.eqb_eq in H. subst. auto 10.
  - intros [->|[->|[->|[->| ->]]]]; reflexivity.
Qed.

Ltac status_clash H := apply (f_equal status) in H; discriminate.

(** Two readings of one header give one token. *)
Lemma same_token (header : option string) (t t' : string) :
  header = Some ("Bearer " ++ t) -> header = Some ("Bearer " ++ t') -> t' = t.
Proof.
  intros H H'. rewrite H in H'. apply Some_inj in H'.
  symmetry. exact (app_inv_prefix "Bearer " t t' H').
Qed.

(** A header with a token after the prefix is neither without the prefix
    nor just the prefix. *)
Lemma not_malformed (t : string) :
  t <> "" ->
  ~ (startsWith "Bearer " ("Bearer " ++ t) = false \/ "Bearer " ++ t = "Bearer ").
Proof.
  intros Hne [Hm|Hm].
  - rewrite startsWith_app in Hm. discriminate.
  - apply Hne. exact (app_inv_prefix "Bearer " t "" Hm).
Qed.

Lemma strict_eq_str_true (v : JsValue) (lit : string) :
  strict_eq_str v lit = true <-> v = JStr lit.
Proof.
  destruct v; simpl; split; intros H; try discriminate.
  - apply String.eqb_eq in H. congruence.
  - inversion H. apply String.eqb_refl.
Qed.

(** ** The request gate *)

Section Gate.

Variable jwt_verify : string -> string -> Z -> VerifyResult.
Variable toISOString : Z -> string.
Variable env : gmap string string.

Let gate := verifyToken jwt_verify env.
Let secret := JWT_SECRET env.

Lemma rejection_status (name : string) : status (rejection name) = 401.
Proof. unfold rejection. repeat case_match; reflexivity. Qed.

(** The four ways through the middleware. *)
Lemma verifyToken_cases (req : Request) (now : Z) :
  (falsy (headers req !! "authorization") = true /\
   gate req now = ([], Reply (message 401 "No token provided")))
  \/ (exists h, headers req !! "authorization" = Some h /\ h <> "" /\
        (startsWith "Bearer " h = false \/ h = "Bearer ") /\
        gate req now = ([], Reply (message 401 "Invalid token format. Use Bearer <token>")))
  \/ (exists t name, headers req !! "authorization" = Some ("Bearer " ++ t) /\
        t <> "" /\ jwt_verify t secret now = Thrown name /\
        gate req now = ([VerifyCalled t secret], Reply (rejection name)))
  \/ (exists t d, headers req !! "authorization" = Some ("Bearer " ++ t) /\
        t <> "" /\ jwt_verify t secret now = Returned d /\
        gate req now =
          ([VerifyCalled t secret],
           Next (mkRequest (headers req) (body req) (Some d)))).
Proof.
  unfold gate, secret, verifyToken.
  destruct (headers req !! "authorization") as [h|] eqn:Hh; simpl.
  2: { left. split; reflexivity. }
  destruct (String.eqb h "") eqn:He.
  { left. split; reflexivity. }
  assert (h <> "") as Hne by (intros ->; discriminate).
  unfold bearer.
  destruct (startsWith "Bearer " h) eqn:Hp.
  2: { right; left. exists h. simpl. auto. }
  apply startsWith_inv in Hp. simpl String.length in Hp.
  remember (slice 7 h) as t eqn:Et. simpl.
  destruct (String.eqb t "") eqn:Ht.
  { right; left. exists h.
    split; [reflexivity|]. split; [exact Hne|]. split; [|reflexivity].
    right. apply String.eqb_eq in Ht. rewrite Ht in Hp. exact Hp. }
  assert (t <> "") as Htne by (intros E; rewrite E in Ht; discriminate).
  right; right.
  destruct (jwt_verify t (JWT_SECRET env) now) as [d|name] eqn:Hv.
  - right. exists t, d. rewrite <- Hp. auto.
  - left. exists t, name. rewrite <- Hp. auto.
Qed.

Lemma not_elem_of_singleton_verify (t s : string) (r : Route) (q : Request) :
  HandlerRan r q ∉ [VerifyCalled t s].
Proof. intros H. apply list_elem_of_singleton in H. discriminate. Qed.

(** C2.  A request to a protected route goes one of two ways.  Either the
    verifier returned claims for the bearer token: then the handler runs,
    once, on the request with these claims attached, and its answer is the
    response.  Or no call of the verifier returned: then the response is a
    401 and the handler does not run. *)
Theorem gate_protects_routes (route : Route) (req : Request) (now : Z) :
  let run := protected jwt_verify toISOString env route req now in
  (exists t d,
      headers req !! "authorization" = Some ("Bearer " ++ t) /\
      jwt_verify t secret now = Returned d /\
      fst run =
        [VerifyCalled t secret;
         HandlerRan route (mkRequest (headers req) (body req) (Some d))] /\
      handler toISOString route
        (mkRequest (headers req) (body req) (Some d)) now = Some (snd run) /\
      status (snd run) = 200)
  \/ ((forall t s, VerifyCalled t s ∈ fst run ->
         exists name, jwt_verify t s now = Thrown name) /\
      status (snd run) = 401 /\
      forall r q, HandlerRan r q ∉ fst run).
Proof.
  intros run. subst run. unfold protected. fold gate.
  destruct (verifyToken_cases req now)
    as [[_ ->]|[(h & _ & _ & _ & ->)|[(t & name & _ & _ & Hv & ->)|
        (t & d & Hh & _ & Hv & ->)]]]; simpl.
  - right. split; [|split]; [|reflexivity|].
    + intros t s H. exfalso. exact (not_elem_of_nil _ H).
    + intros r q. apply not_elem_of_nil.
  - right. split; [|split]; [|reflexivity|].
    + intros t s H. exfalso. exact (not_elem_of_nil _ H).
    + intros r q. apply not_elem_of_nil.
  - right. split; [|split].
    + intros t' s' H. apply list_elem_of_singleton in H.
      injection H as -> ->. exists name. exact Hv.
    + apply rejection_status.
    + intros r q. apply not_elem_of_singleton_verify.
  - left. exists t, d. destruct route; simpl; auto.
Qed.

(** C5, as the code has it.  Without an Authorization header, or with an
    empty one, the answer is 401 "No token provided"; with a non-empty one
    that does not start with "Bearer ", or is just "Bearer ", it is the
    401 of a malformed carrier; the verifier is called in neither case.
    Otherwise the verifier is called once, on the non-empty text after
    the prefix. *)
Theorem carrier_extraction (req : Request) (now : Z) :
  (headers req !! "authorization" = None \/
   headers req !! "authorization" = Some "" ->
   gate req now = ([], Reply (message 401 "No token provided")))
  /\ (forall h, headers req !! "authorization" = Some h -> h <> "" ->
        startsWith "Bearer " h = false \/ h = "Bearer " ->
        gate req now =
          ([], Reply (message 401 "Invalid token format. Use Bearer <token>")))
  /\ (forall t, headers req !! "authorization" = Some ("Bearer " ++ t) ->
        t <> "" ->
        fst (gate req now) = [VerifyCalled t secret]).
Proof.
  destruct (verifyToken_cases req now)
    as [[Hf ->]|[(h & Hh & Hne & Hm & ->)|[(t & name & Hh & Hne & _ & ->)|
        (t & d & Hh & Hne & _ & ->)]]].
  - split; [reflexivity|]. split.
    + intros h Hh Hne _. rewrite Hh in Hf. simpl in Hf.
      apply String.eqb_eq in Hf. contradiction.
    + intros t Hh _. rewrite Hh in Hf. discriminate.
  - split; [|split].
    + intros [E|E]; rewrite E in Hh; [discriminate|].
      injection Hh as <-. contradiction.
    + reflexivity.
    + intros t Hh' Hne'. rewrite Hh' in Hh. apply Some_inj in Hh. subst h.
      destruct (not_malformed t Hne' Hm).
  - split; [|split].
    + intros [E|E]; rewrite E in Hh; discriminate.
    + intros h Hh' _ Hm. rewrite Hh' in Hh. apply Some_inj in Hh. subst h.
      destruct (not_malformed t Hne Hm).
    + intros t' Hh' _. rewrite (same_token _ _ _ Hh Hh'). reflexivity.
  - split; [|split].
    + intros [E|E]; rewrite E in Hh; discriminate.
    + intros h Hh' _ Hm. rewrite Hh' in Hh. apply Some_inj in Hh. subst h.
      destruct (not_malformed t Hne Hm).
    + intros t' Hh' _. rewrite (same_token _ _ _ Hh Hh'). reflexivity.
Qed.

(** C9.  An Authorization header that is exactly "Bearer " or "Bearer" is
    answered with 401 "Invalid token format. Use Bearer <token>", and the
    verifier is not called. *)
Theorem empty_bearer_is_malformed (req : Request) (now : Z) (h : string) :
  headers req !! "authorization" = Some h ->
  h = "Bearer " \/ h = "Bearer" ->
  gate req now =
    ([], Reply (message 401 "Invalid token format. Use Bearer <token>")).
Proof.
  intros Hh Hcase. unfold gate, verifyToken. rewrite Hh.
  destruct Hcase as [-> | ->]; reflexivity.
Qed.

(** C10.  When the verifier returns claims for the bearer token of a
    request to [GET /api/user-data], the response is a 200 whose [data]
    has [accessLevel] "admin" whatever the claims are, [userId] the [id]
    of the claims and [lastAccessed] the time of the request; two sets of
    claims with the same [id] get the same response. *)
Theorem access_level_is_constant (req : Request) (now : Z) (t : string) :
  headers req !! "authorization" = Some ("Bearer " ++ t) ->
  t <> "" ->
  forall d, jwt_verify t secret now = Returned d ->
  let res := snd (protected jwt_verify toISOString env UserData req now) in
  status res = 200 /\
  (exists data,
      json res !! "data" = Some (JObj data) /\
      data !! "accessLevel" = Some (JStr "admin") /\
      data !! "userId" = Some (member d "id") /\
      data !! "lastAccessed" = Some (JStr (toISOString now))) /\
  (forall d', member d' "id" = member d "id" ->
      userDataHandler toISOString
        (mkRequest (headers req) (body req) (Some d')) now = Some res).
Proof.
  intros Hh Hne d Hv res. subst res. unfold protected. fold gate.
  destruct (verifyToken_cases req now)
    as [[Hf _]|[(h & Hh' & _ & Hm & _)|[(t' & name & Hh' & _ & Hv' & _)|
        (t' & d' & Hh' & _ & Hv' & ->)]]].
  - rewrite Hh in Hf. simpl in Hf. destruct t; discriminate.
  - rewrite Hh in Hh'. apply Some_inj in Hh'. subst h.
    destruct (not_malformed t Hne Hm).
  - rewrite (same_token _ _ _ Hh Hh') in Hv'. fold secret in Hv. congruence.
  - rewrite (same_token _ _ _ Hh Hh') in Hv'.
    assert (d' = d) as -> by (fold secret in Hv; congruence).
    simpl. split; [reflexivity|]. split.
    + eexists. split; [reflexivity|]. by simplify_map_eq.
    + intros d' Hid. unfold userDataHandler. simpl. rewrite Hid. reflexivity.
Qed.

End Gate.

(** ** The login route *)

Section Login.

Variable jwt_sign : JsObject -> string -> string -> Z -> string.
Variable env : gmap string string.

Let issued (now : Z) : Response :=
  login_successful
    (jwt_sign {[ "id" := JNum 1; "username" := JStr "admin";
                 "email" := JStr "admin@example.com" ]}
              (JWT_SECRET env) "1h" now).

(** The three answers of the login route. *)
Lemma login_cases (req : Request) (now : Z) :
  let u := prop (body req) "username" in
  let p := prop (body req) "password" in
  ((truthy u = false \/ truthy p = false) /\
   login jwt_sign env req now =
     message 400 "Username and password are required")
  \/ (u = JStr "admin" /\ p = JStr "password123" /\
      login jwt_sign env req now = issued now)
  \/ (truthy u = true /\ truthy p = true /\
      ~ (u = JStr "admin" /\ p = JStr "password123") /\
      login jwt_sign env req now = message 401 "Invalid credentials").
Proof.
  intros u p. unfold login. fold u p.
  change (username DEMO_USER) with "admin".
  change (password DEMO_USER) with "password123".
  destruct (truthy u) eqn:Hu; cbn [negb orb]; [|left; auto].
  destruct (truthy p) eqn:Hp; cbn [negb orb]; [|left; auto].
  right.
  destruct (strict_eq_str u "admin") eqn:Eu; cbn [andb].
  - destruct (strict_eq_str p "password123") eqn:Ep.
    + left. apply strict_eq_str_true in Eu, Ep.
      split; [exact Eu|]. split; [exact Ep|]. reflexivity.
    + right. split; [reflexivity|]. split; [reflexivity|].
      split; [|reflexivity]. intros [_ E].
      apply strict_eq_str_true in E. congruence.
  - right. split; [reflexivity|]. split; [reflexivity|].
    split; [|reflexivity]. intros [E _].
    apply strict_eq_str_true in E. congruence.
Qed.

(** The classification, for any way [F] of saying that the username and
    the password of the request are falsy. *)
Lemma login_classified_by (F : JsValue -> Prop) (req : Request) (now : Z) :
  let u := prop (body req) "username" in
  let p := prop (body req) "password" in
  let res := login jwt_sign env req now in
  (F u <-> truthy u = false) ->
  (F p <-> truthy p = false) ->
  (res = message 400 "Username and password are required" <-> F u \/ F p)
  /\ (res = issued now <-> u = JStr "admin" /\ p = JStr "password123")
  /\ (res = message 401 "Invalid credentials"
     <-> ~ (F u \/ F p) /\ ~ (u = JStr "admin" /\ p = JStr "password123")).
Proof.
  intros u p res HFu HFp. subst res. rewrite HFu, HFp.
  pose proof (login_cases req now) as Hc. cbv zeta in Hc. fold u p in Hc.
  destruct Hc as [[Hf ->]|[(Hu & Hp & ->)|(Hu & Hp & Hne & ->)]];
    (split; [|split]); split; intros H;
    try reflexivity; try status_clash H.
  - exact Hf.
  - destruct H as [Eu Ep]. rewrite Eu, Ep in Hf. destruct Hf; discriminate.
  - tauto.
  - rewrite Hu, Hp in H. destruct H; discriminate.
  - auto.
  - tauto.
  - rewrite Hu, Hp in H. destruct H; discriminate.
  - contradiction.
  - split; [|exact Hne]. rewrite Hu, Hp. intros [E|E]; discriminate.
Qed.

(** On a body whose username and password are strings, when they are
    there at all, the spec's wording of the classification holds. *)
Lemma login_as_specified_for_strings (req : Request) (now : Z) :
  (forall k, k = "username" \/ k = "password" ->
     prop (body req) k = JUndefined \/ exists s, prop (body req) k = JStr s) ->
  login_as_specified jwt_sign env req now.
Proof.
  intros Hstr.
  assert (forall k, k = "username" \/ k = "password" ->
            missing_or_empty (prop (body req) k)
            <-> truthy (prop (body req) k) = false) as Hme.
  { intros k Hk. unfold missing_or_empty.
    destruct (Hstr k Hk) as [->|[s ->]]; simpl.
    - tauto.
    - split.
      + intros [H|[H|H]]; try discriminate. injection H as ->. reflexivity.
      + intros H. apply negb_false_iff, String.eqb_eq in H. subst. auto. }
  destruct (login_classified_by missing_or_empty req now
              (Hme "username" (or_introl eq_refl))
              (Hme "password" (or_intror eq_refl))) as (H400 & H200 & H401).
  unfold login_as_specified. split; [exact H400|]. split; [|exact H401].
  rewrite <- H200. split.
  - intros [token H].
    pose proof (login_cases req now) as Hc. cbv zeta in Hc.
    destruct Hc as [[_ E]|[(_ & _ & E)|(_ & _ & _ & E)]];
      [|exact E|]; rewrite E in H; status_clash H.
  - intros H. eexists. exact H.
Qed.

(** C6, as the code has it.  The login route answers 400 "Username and
    password are required" exactly when the username or the password is
    missing or falsy (null, false, 0 or the empty string); 200 with a
    message and a token exactly when the username is the string "admin"
    and the password the string "password123"; and 401 "Invalid
    credentials" exactly in the remaining cases. *)
Theorem login_classification (req : Request) (now : Z) :
  let u := prop (body req) "username" in
  let p := prop (body req) "password" in
  let res := login jwt_sign env req now in
  (res = message 400 "Username and password are required"
     <-> falsy_value u \/ falsy_value p)
  /\ (res = login_successful
              (jwt_sign {[ "id" := JNum 1; "username" := JStr "admin";
                           "email" := JStr "admin@example.com" ]}
                        (JWT_SECRET env) "1h" now)
     <-> u = JStr "admin" /\ p = JStr "password123")
  /\ (res = message 401 "Invalid credentials"
     <-> ~ (falsy_value u \/ falsy_value p) /\
         ~ (u = JStr "admin" /\ p = JStr "password123")).
Proof.
  intros u p res.
  apply (login_classified_by falsy_value req now);
    symmetry; apply truthy_false.
Qed.

End Login.

(** ** The token protocol *)

Lemma segments_single (a : string) :
  Jwt.nodot a = true -> Jwt.segments a = [a].
Proof.
  induction a as [|c a IH]; simpl; [reflexivity|].
  intros H. apply andb_true_iff in H as [Hc Ha].
  apply negb_true_iff in Hc. rewrite Hc, (IH Ha). reflexivity.
Qed.

Lemma segments_cons (a rest : string) :
  Jwt.nodot a = true ->
  Jwt.segments (a ++ "." ++ rest) = a :: Jwt.segments rest.
Proof.
  induction a as [|c a IH]; intros H.
  - reflexivity.
  - simpl in H. apply andb_true_iff in H as [Hc Ha].
    apply negb_true_iff in Hc.
    change (Jwt.segments (String c (a ++ "." ++ rest)) =
            String c a :: Jwt.segments rest).
    simpl. rewrite Hc, (IH Ha). reflexivity.
Qed.

Lemma segments_nonempty (s : string) : Jwt.segments s <> [].
Proof.
  destruct s as [|c s]; simpl; [discriminate|].
  destruct (Ascii.eqb c "."); [discriminate|].
  destruct (Jwt.segments s); discriminate.
Qed.

Lemma segments_one (s x : string) : Jwt.segments s = [x] -> x = s.
Proof.
  revert x. induction s as [|c s IH]; simpl; intros x H.
  - congruence.
  - destruct (Ascii.eqb c ".").
    + injection H as _ H. destruct (segments_nonempty _ H).
    + destruct (Jwt.segments s) as [|seg segs] eqn:E.
      * destruct (segments_nonempty _ E).
      * injection H as <- ->. f_equal. apply IH. reflexivity.
Qed.

Section ProtocolFacts.

Context {header_segment : Jwt.Segment Jwt.Header}.
Context {payload_segment : Jwt.Segment Jwt.Payload}.
Context {signer : Jwt.Mac}.
Context {header_laws : Jwt.SegmentLaws Jwt.Header}.
Context {payload_laws : Jwt.SegmentLaws Jwt.Payload}.
Context {signer_laws : Jwt.MacLaws}.

(** The three segments of an issued token. *)
Lemma segments_issue (c : Jwt.IdentityClaims) (secret : string) (now : Z) :
  let h := Jwt.seg_encode Jwt.fixed_header in
  let p := Jwt.seg_encode (Jwt.mkPayload c (now + Jwt.validity_window)) in
  Jwt.segments (Jwt.issue c secret now) =
    [h; p; Jwt.mac secret (Jwt.unsigned h p)].
Proof.
  intros h p. unfold Jwt.issue, Jwt.unsigned. fold h p.
  rewrite !append_assoc.
  rewrite segments_cons by apply Jwt.seg_nodot.
  rewrite segments_cons by apply Jwt.seg_nodot.
  rewrite segments_single by apply Jwt.mac_nodot.
  reflexivity.
Qed.

(** What the verifier says of an issued token, under the issuing secret. *)
Lemma verify_issue (c : Jwt.IdentityClaims) (secret : string) (t0 t : Z) :
  Jwt.verify (Jwt.issue c secret t0) secret t =
    if t0 + 3600 <=? t then Jwt.Err Jwt.TokenExpired else Jwt.Ok c.
Proof.
  unfold Jwt.verify. rewrite segments_issue.
  rewrite !Jwt.seg_decode_encode, String.eqb_refl. reflexivity.
Qed.

Lemma embedded_expiry_issue (c : Jwt.IdentityClaims) (secret : string) (t0 : Z) :
  Jwt.embedded_expiry (Jwt.issue c secret t0) = Some (t0 + 3600).
Proof.
  unfold Jwt.embedded_expiry. rewrite segments_issue.
  rewrite Jwt.seg_decode_encode. reflexivity.
Qed.

(** C1.  A token issued for any claims, verified with the same secret at
    any time before its expiry, gives back the claims it was issued for. *)
Theorem verify_issue_roundtrip
    (c : Jwt.IdentityClaims) (secret : string) (t0 t : Z) :
  t < t0 + 3600 ->
  Jwt.verify (Jwt.issue c secret t0) secret t = Jwt.Ok c.
Proof.
  intros Ht. rewrite verify_issue.
  destruct (Z.leb_spec (t0 + 3600) t); [lia | reflexivity].
Qed.

(** C4.  An issued token embeds the expiry issuance time + 3600 seconds,
    and its verification under the issuing secret fails with TokenExpired
    exactly when the current time is at or past that expiry.  For any
    token with a valid signature, verification fails with TokenExpired
    exactly when the current time is at or past the expiry it embeds. *)
Theorem expiry_semantics (secret : string) (t : Z) :
  (forall c t0,
      Jwt.embedded_expiry (Jwt.issue c secret t0) = Some (t0 + 3600) /\
      (Jwt.verify (Jwt.issue c secret t0) secret t = Jwt.Err Jwt.TokenExpired
         <-> t0 + 3600 <= t))
  /\ (forall token, Jwt.well_signed token secret = true ->
        (Jwt.verify token secret t = Jwt.Err Jwt.TokenExpired
           <-> exists x, Jwt.embedded_expiry token = Some x /\ x <= t)).
Proof.
  split.
  - intros c t0. split; [apply embedded_expiry_issue|].
    rewrite verify_issue.
    destruct (Z.leb_spec (t0 + 3600) t); split; (lia || discriminate || auto).
  - intros token. unfold Jwt.well_signed, Jwt.verify, Jwt.embedded_expiry.
    destruct (Jwt.segments token) as [|h [|p [|sg [|? ?]]]]; try discriminate.
    destruct (Jwt.seg_decode h); [|discriminate].
    destruct (Jwt.seg_decode p) as [body|]; [|discriminate].
    intros ->. simpl.
    destruct (Z.leb_spec (Jwt.expiry body) t); split.
    + intros _. eauto.
    + reflexivity.
    + discriminate.
    + intros (x & [= <-] & Hx). lia.
Qed.

(** C8.  Two tokens issued for the same claims at different instants are
    different strings, embed different expiries, and each verifies to the
    claims until its own expiry. *)
Theorem distinct_issuance
    (c : Jwt.IdentityClaims) (secret : string) (t1 t2 : Z) :
  t1 <> t2 ->
  Jwt.issue c secret t1 <> Jwt.issue c secret t2 /\
  Jwt.embedded_expiry (Jwt.issue c secret t1)
    <> Jwt.embedded_expiry (Jwt.issue c secret t2) /\
  (forall t, t < t1 + 3600 ->
      Jwt.verify (Jwt.issue c secret t1) secret t = Jwt.Ok c) /\
  (forall t, t < t2 + 3600 ->
      Jwt.verify (Jwt.issue c secret t2) secret t = Jwt.Ok c).
Proof.
  intros Hne.
  assert (Jwt.embedded_expiry (Jwt.issue c secret t1)
          <> Jwt.embedded_expiry (Jwt.issue c secret t2)) as Hexp.
  { rewrite !embedded_expiry_issue. intros [= E]. lia. }
  split; [|split; [exact Hexp|split]].
  - intros E. apply Hexp. rewrite E. reflexivity.
  - intros t Ht. rewrite verify_issue.
    destruct (Z.leb_spec (t1 + 3600) t); [lia | reflexivity].
  - intros t Ht. rewrite verify_issue.
    destruct (Z.leb_spec (t2 + 3600) t); [lia | reflexivity].
Qed.

(** Integrity, as far as it goes without asking anything of the MAC: a
    token is accepted only if its third segment is the MAC, under the
    verifier's secret, of its first two; so an issued token whose third
    segment was changed is an InvalidToken.  That a changed header or
    payload, or another secret, gives another MAC is a matter of the MAC
    alone. *)
Lemma accepted_token_carries_mac
    (token secret : string) (t : Z) (c : Jwt.IdentityClaims) :
  Jwt.verify token secret t = Jwt.Ok c ->
  exists h p, Jwt.segments token = [h; p; Jwt.mac secret (Jwt.unsigned h p)].
Proof.
  unfold Jwt.verify.
  destruct (Jwt.segments token) as [|h [|p [|sg [|? ?]]]]; try discriminate.
  destruct (Jwt.seg_decode h); [|discriminate].
  destruct (Jwt.seg_decode p) as [body|]; [|discriminate].
  destruct (String.eqb sg _) eqn:E; [|discriminate].
  apply String.eqb_eq in E. subst sg. eauto.
Qed.

Lemma tampered_signature_rejected
    (c : Jwt.IdentityClaims) (secret signature : string) (t0 t : Z) :
  let u := Jwt.unsigned (Jwt.seg_encode Jwt.fixed_header)
             (Jwt.seg_encode (Jwt.mkPayload c (t0 + Jwt.validity_window))) in
  signature <> Jwt.mac secret u ->
  Jwt.verify (u ++ "." ++ signature) secret t = Jwt.Err Jwt.InvalidToken.
Proof.
  intros u Hne.
  destruct (Jwt.verify (u ++ "." ++ signature) secret t) as [c'|[]] eqn:E;
    [|reflexivity|].
  - apply accepted_token_carries_mac in E as (h & p & E).
    unfold u, Jwt.unsigned in E. rewrite !append_assoc in E.
    rewrite !segments_cons in E by apply Jwt.seg_nodot.
    injection E as <- <- E. apply segments_one in E.
    exfalso. apply Hne. symmetry. exact E.
  - exfalso. revert E. unfold Jwt.verify, u, Jwt.unsigned.
    rewrite !append_assoc, !segments_cons by apply Jwt.seg_nodot.
    destruct (Jwt.segments signature) as [|sg [|? ?]] eqn:Es;
      try discriminate.
    rewrite !Jwt.seg_decode_encode.
    apply segments_one in Es. subst sg.
    destruct (String.eqb signature _) eqn:Eq; [|discriminate].
    apply String.eqb_eq in Eq. contradiction.
Qed.

Lemma claims_of_payload_of_claims (c : Jwt.IdentityClaims) :
  Jwt.claims_of_payload (Jwt.payload_of_claims c) = Some c.
Proof. destruct c. reflexivity. Qed.

Lemma issue_nonempty (c : Jwt.IdentityClaims) (secret : string) (t0 : Z) :
  Jwt.issue c secret t0 <> "".
Proof.
  intros E. apply (f_equal Jwt.segments) in E.
  rewrite segments_issue in E. discriminate.
Qed.

(** The server's verifier on a token of the server's signer. *)
Lemma jwt_verify_jwt_sign
    (c : Jwt.IdentityClaims) (secret expiresIn : string) (t0 t : Z) :
  t < t0 + 3600 ->
  Jwt.jwt_verify (Jwt.jwt_sign (Jwt.payload_of_claims c) secret expiresIn t0)
                 secret t
    = Returned (DecodedObject (Jwt.payload_of_claims c)).
Proof.
  intros Ht. unfold Jwt.jwt_verify, Jwt.jwt_sign.
  rewrite claims_of_payload_of_claims, verify_issue.
  destruct (Z.leb_spec (t0 + 3600) t); [lia | reflexivity].
Qed.

End ProtocolFacts.

(** ** Integrity of the signature *)





Section Integrity.

Context {header_segment : Jwt.Segment Jwt.Header}.
Context {payload_segment : Jwt.Segment Jwt.Payload}.
Context {signer : Jwt.Mac}.
Context {header_laws : Jwt.SegmentLaws Jwt.Header}.
Context {payload_laws : Jwt.SegmentLaws Jwt.Payload}.
Context {signer_laws : Jwt.MacLaws}.
Context {signer_collision_free : Jwt.MacCollisionFree}.





End Integrity.

(** ** Login, then profile *)

Section LoginThenProfile.

Variable jwt_sign : JsObject -> string -> string -> Z -> string.
Variable jwt_verify : string -> string -> Z -> VerifyResult.
Variable toISOString : Z -> string.
Variable env : gmap string string.




End LoginThenProfile.

(** ** The binary-digit codec *)

Lemma unbits_bits (p : positive) : Jwt.unbits (Jwt.bits p) = Some p.
Proof. induction p as [p IH|p IH|]; simpl; rewrite ?IH; reflexivity. Qed.

Lemma nodot_bits (p : positive) : Jwt.nodot (Jwt.bits p) = true.
Proof. induction p as [p IH|p IH|]; simpl; rewrite ?IH; reflexivity. Qed.

Lemma bits_segment_laws {A B : Type} `{Countable B}
    (to : A -> B) (from : B -> A) :
  (forall x, from (to x) = x) ->
  @Jwt.SegmentLaws A (Jwt.bits_segment to from).
Proof.
  intros Hinv. split; intros x; simpl.
  - rewrite unbits_bits. simpl. rewrite decode_encode. simpl.
    rewrite Hinv. reflexivity.
  - apply nodot_bits.
Qed.

Lemma bits_header_laws : @Jwt.SegmentLaws Jwt.Header Jwt.bits_header.
Proof. apply bits_segment_laws. intros []; reflexivity. Qed.

Lemma bits_payload_laws : @Jwt.SegmentLaws Jwt.Payload Jwt.bits_payload.
Proof. apply bits_segment_laws. intros [[] ?]; reflexivity. Qed.

Lemma bits_mac_laws : @Jwt.MacLaws Jwt.bits_mac.
Proof. split. intros secret text. apply nodot_bits. Qed.

Lemma bits_mac_collision_free : @Jwt.MacCollisionFree Jwt.bits_mac.
Proof.
  split. intros secret secret' text text' E. simpl in E.
  apply (f_equal Jwt.unbits) in E. rewrite !unbits_bits in E.
  apply Some_inj, (inj encode) in E. injection E as -> ->. split; reflexivity.
Qed.

(** ** The claims of the spec that the code does not meet *)

(** C5 fails on a header that is just the prefix, which is not passed to the
    verifier, and on an empty header, which is answered as a missing one. *)
Lemma carrier_extraction_counterexample :
  ~ carrier_extraction_as_specified Jwt.verify_bits ∅ (bearer_request "Bearer ") 0
  /\ ~ carrier_extraction_as_specified Jwt.verify_bits ∅ (bearer_request "") 0.
Proof.
  split; intros (_ & Hmalformed & Hpassed).
  - specialize (Hpassed "Bearer " eq_refl eq_refl). discriminate.
  - specialize (Hmalformed "" eq_refl eq_refl).
    apply (f_equal (fun g => match snd g with
                             | Reply r => json r !! "message"
                             | Next _ => None
                             end)) in Hmalformed.
    vm_compute in Hmalformed. discriminate.
Qed.

(** C6 fails on a username that is the number 0: it is there and it is not
    empty, and the answer is the 400. *)
Lemma login_classification_counterexample :
  ~ login_as_specified Jwt.sign_bits ∅
      (login_request (JNum 0) (JStr "password123")) 0.
Proof.
  intros (H400 & _ & _).
  destruct (proj1 H400 eq_refl) as [[H|[H|H]]|[H|[H|H]]];
    vm_compute in H; discriminate.
Qed.


(** ** The theorems at sample inputs *)

Section Samples.

#[local] Existing Instance Jwt.bits_header.
#[local] Existing Instance Jwt.bits_payload.
#[local] Existing Instance Jwt.bits_mac.
#[local] Existing Instance bits_header_laws.
#[local] Existing Instance bits_payload_laws.
#[local] Existing Instance bits_mac_laws.

Example login_then_profile :
  login Jwt.sign_bits ∅ (login_request (JStr "admin") (JStr "password123")) 0
    = login_successful sample_token
  /\ protected Jwt.verify_bits epoch ∅ Profile
       (bearer_request ("Bearer " ++ sample_token)) 3599
     = ([VerifyCalled sample_token default_secret;
         HandlerRan Profile
           (mkRequest {[ "authorization" := "Bearer " ++ sample_token ]} ∅
              (Some (DecodedObject (Jwt.payload_of_claims admin_claims))))],
        profile_of {[ "id" := JNum 1; "username" := JStr "admin";
                      "email" := JStr "admin@example.com" ]}).
Proof. split; vm_compute; reflexivity. Qed.

Example profile_after_an_hour :
  protected Jwt.verify_bits epoch ∅ Profile
    (bearer_request ("Bearer " ++ sample_token)) 3600
  = ([VerifyCalled sample_token default_secret],
     message 401 "Token has expired").
Proof. vm_compute. reflexivity. Qed.

Example profile_with_garbage :
  protected Jwt.verify_bits epoch ∅ Profile
    (bearer_request "Bearer not-a-real-token") 0
  = ([VerifyCalled "not-a-real-token" default_secret],
     message 401 "Invalid token").
Proof. vm_compute. reflexivity. Qed.

Example login_with_number_zero :
  login Jwt.sign_bits ∅ (login_request (JNum 0) (JStr "password123")) 0
    = message 400 "Username and password are required".
Proof. vm_compute. reflexivity. Qed.

Example login_with_wrong_password :
  login Jwt.sign_bits ∅ (login_request (JStr "admin") (JStr "wrong")) 0
    = message 401 "Invalid credentials".
Proof. vm_compute. reflexivity. Qed.

Lemma verify_issue_roundtrip_witness :
  3599 < 0 + 3600 /\
  Jwt.verify (Jwt.issue admin_claims default_secret 0) default_secret 3599
    = Jwt.Ok admin_claims.
Proof.
  split; [lia|]. apply (verify_issue_roundtrip admin_claims). lia.
Defined.

Lemma expiry_semantics_witness :
  Jwt.verify (Jwt.issue admin_claims default_secret 0) default_secret 3600
    = Jwt.Err Jwt.TokenExpired
  /\ Jwt.well_signed (Jwt.issue admin_claims default_secret 0) default_secret
     = true
  /\ exists x,
       Jwt.embedded_expiry (Jwt.issue admin_claims default_secret 0) = Some x
       /\ x <= 3600.
Proof.
  destruct (expiry_semantics default_secret 3600) as [Hissued Hsigned].
  assert (Jwt.well_signed (Jwt.issue admin_claims default_secret 0)
            default_secret = true) as Hw by (vm_compute; reflexivity).
  assert (Jwt.verify (Jwt.issue admin_claims default_secret 0)
            default_secret 3600 = Jwt.Err Jwt.TokenExpired) as Hv.
  { apply (proj2 (Hissued admin_claims 0)). lia. }
  split; [exact Hv|]. split; [exact Hw|].
  apply (proj1 (Hsigned _ Hw)). exact Hv.
Defined.

Lemma distinct_issuance_witness :
  0 <> 1 /\
  Jwt.issue admin_claims default_secret 0
    <> Jwt.issue admin_claims default_secret 1.
Proof.
  split; [lia|]. apply (distinct_issuance admin_claims default_secret 0 1). lia.
Defined.

End Samples.

Lemma gate_protects_routes_witness :
  let run := protected Jwt.verify_bits epoch ∅ UserData
               (bearer_request "Bearer not-a-real-token") 0 in
  status (snd run) = 401 /\ forall r q, HandlerRan r q ∉ fst run.
Proof.
  intros run.
  destruct (gate_protects_routes Jwt.verify_bits epoch ∅ UserData
              (bearer_request "Bearer not-a-real-token") 0)
    as [(t & d & _ & _ & _ & _ & H200)|(_ & H401 & Hnever)].
  - vm_compute in H200. discriminate.
  - split; assumption.
Defined.

Lemma carrier_extraction_witness :
  fst (verifyToken Jwt.verify_bits ∅ (bearer_request "Bearer abc") 0)
    = [VerifyCalled "abc" (JWT_SECRET ∅)].
Proof.
  apply (proj2 (proj2 (carrier_extraction Jwt.verify_bits ∅
                         (bearer_request "Bearer abc") 0)) "abc").
  - reflexivity.
  - discriminate.
Defined.

Lemma empty_bearer_is_malformed_witness :
  verifyToken Jwt.verify_bits ∅ (bearer_request "Bearer") 0
    = ([], Reply (message 401 "Invalid token format. Use Bearer <token>")).
Proof.
  apply (empty_bearer_is_malformed Jwt.verify_bits ∅
           (bearer_request "Bearer") 0 "Bearer").
  - reflexivity.
  - right. reflexivity.
Defined.

Lemma access_level_is_constant_witness :
  let res := snd (protected Jwt.verify_bits epoch ∅ UserData
                    (bearer_request ("Bearer " ++ sample_token)) 10) in
  status res = 200 /\
  exists data,
    json res !! "data" = Some (JObj data) /\
    data !! "accessLevel" = Some (JStr "admin") /\
    data !! "userId" = Some (JNum 1).
Proof.
  intros res.
  destruct (access_level_is_constant Jwt.verify_bits epoch ∅
              (bearer_request ("Bearer " ++ sample_token)) 10 sample_token)
    with (d := DecodedObject (Jwt.payload_of_claims admin_claims))
    as (Hstatus & (data & Hdata & Hlevel & Hid & _) & _).
  - apply lookup_singleton_eq.
  - vm_compute. discriminate.
  - vm_compute. reflexivity.
  - split; [exact Hstatus|]. exists data. auto.
Defined.


(** * Further properties of the server *)

(** ** The secret *)

(** X1.  The signing secret is never empty: it is the [JWT_SECRET] variable when
    that is set and not empty, and the placeholder otherwise. *)
Theorem secret_never_empty (env : gmap string string) :
  JWT_SECRET env <> ""
  /\ (forall s, env !! "JWT_SECRET" = Some s -> s <> "" -> JWT_SECRET env = s)
  /\ (env !! "JWT_SECRET" = None \/ env !! "JWT_SECRET" = Some "" ->
      JWT_SECRET env = default_secret).
Proof.
  unfold JWT_SECRET.
  destruct (env !! "JWT_SECRET") as [s|] eqn:E.
  - destruct (String.eqb s "") eqn:Es.
    + apply String.eqb_eq in Es. subst s.
      split; [discriminate|]. split; [|reflexivity].
      intros s' [= <-] Hne. contradiction.
    + assert (s <> "") as Hs by (intros ->; discriminate).
      split; [exact Hs|]. split.
      * intros s' [= <-] _. reflexivity.
      * intros [H|[= H]]; [discriminate | contradiction].
  - split; [discriminate|]. split; [discriminate | reflexivity].
Qed.

(** X2.  The start-up log announces the placeholder exactly when the secret in
    force is the placeholder: the variable is unset, empty, or set to the
    placeholder text itself. *)
Theorem default_secret_is_announced (env : gmap string string) :
  (secret_notice env = "JWT_SECRET: USING DEFAULT (CHANGE THIS!)"
     <-> env !! "JWT_SECRET" = None \/ env !! "JWT_SECRET" = Some ""
         \/ env !! "JWT_SECRET" = Some default_secret)
  /\ (secret_notice env = "JWT_SECRET: USING DEFAULT (CHANGE THIS!)"
      \/ secret_notice env = "JWT_SECRET: Using environment variable").
Proof.
  unfold secret_notice, JWT_SECRET, default_secret.
  destruct (env !! "JWT_SECRET") as [s|] eqn:E.
  - destruct (String.eqb s "") eqn:Es.
    + apply String.eqb_eq in Es. subst s.
      split; [|left; reflexivity]. split; auto.
    + destruct (String.eqb s "your_secret_key_change_in_production") eqn:Ed.
      * apply String.eqb_eq in Ed. subst s.
        split; [|left; reflexivity]. split; auto.
      * split; [|right; reflexivity]. split; [discriminate|].
        intros [H|[[= H]|[= H]]]; [discriminate| |]; subst s; discriminate.
  - split; [|left; reflexivity]. split; auto.
Qed.

(** ** The gate *)

Lemma message_inj (code : Z) (a b : string) :
  message code a = message code b -> a = b.
Proof.
  intros H. apply (f_equal (fun r => json r !! "message")) in H.
  unfold message in H. simpl in H.
  rewrite !lookup_singleton_eq in H. congruence.
Qed.

(** X3.  Taking the token out of a header undoes putting the scheme in front of
    it, and nothing else yields a token: the prefix is matched exactly, case
    and space included, and the rest is taken as it is. *)
Theorem bearer_roundtrip (h t : string) :
  bearer h = Some t <-> h = "Bearer " ++ t.
Proof.
  unfold bearer. split.
  - destruct (startsWith "Bearer " h) eqn:Hp; [|discriminate].
    intros [= <-]. exact (startsWith_inv "Bearer " h Hp).
  - intros ->. rewrite startsWith_app.
    change 7%nat with (String.length "Bearer "). rewrite slice_app. reflexivity.
Qed.

Section GateFacts.

Variable jwt_verify : string -> string -> Z -> VerifyResult.
Variable env : gmap string string.

Let gate := verifyToken jwt_verify env.
Let secret := JWT_SECRET env.

(** X4.  The middleware calls the verifier at most once, and only with the
    server's secret and the non-empty text that follows "Bearer " in the
    Authorization header. *)
Theorem verifier_called_once_on_bearer_token (req : Request) (now : Z) :
  (length (fst (gate req now)) <= 1)%nat
  /\ forall t s, VerifyCalled t s ∈ fst (gate req now) ->
       s = secret /\ t <> "" /\
       headers req !! "authorization" = Some ("Bearer " ++ t).
Proof.
  destruct (verifyToken_cases jwt_verify env req now)
    as [[_ E]|[(h & _ & _ & _ & E)|[(t & name & Hh & Hne & _ & E)|
        (t & d & Hh & Hne & _ & E)]]];
    unfold gate; rewrite E; simpl; (split; [lia|]); intros t' s' H.
  - destruct (not_elem_of_nil _ H).
  - destruct (not_elem_of_nil _ H).
  - apply list_elem_of_singleton in H. injection H as -> ->. auto.
  - apply list_elem_of_singleton in H. injection H as -> ->. auto.
Qed.

(** The answer of the [catch] block, read backwards. *)
Lemma rejection_cases (name : string) :
  (rejection name = message 401 "Token has expired"
     <-> name = "TokenExpiredError")
  /\ (rejection name = message 401 "Invalid token"
     <-> name = "JsonWebTokenError")
  /\ (rejection name = message 401 "Token verification failed"
     <-> name <> "TokenExpiredError" /\ name <> "JsonWebTokenError")
  /\ rejection name <> message 401 "No token provided"
  /\ rejection name <> message 401 "Invalid token format. Use Bearer <token>".
Proof.
  unfold rejection.
  destruct (String.eqb name "TokenExpiredError") eqn:E1;
    [apply String.eqb_eq in E1 | apply String.eqb_neq in E1];
    [|destruct (String.eqb name "JsonWebTokenError") eqn:E2;
      [apply String.eqb_eq in E2 | apply String.eqb_neq in E2]];
    (split; [|split; [|split; [|split]]]);
    try split; intros H;
    try reflexivity; try (apply message_inj in H; discriminate);
    try assumption; try (subst name; discriminate); try tauto.
Qed.

(** The three kinds of Authorization header exclude one another. *)
Lemma carrier_kinds_exclusive (auth : option string) :
  let absent := auth = None \/ auth = Some "" in
  let malformed :=
    exists h, auth = Some h /\ h <> "" /\
              (startsWith "Bearer " h = false \/ h = "Bearer ") in
  let token t := auth = Some ("Bearer " ++ t) /\ t <> "" in
  (absent -> ~ malformed /\ forall t, ~ token t)
  /\ (malformed -> ~ absent /\ forall t, ~ token t)
  /\ (forall t, token t -> ~ absent /\ ~ malformed /\
                 forall t', token t' -> t' = t).
Proof.
  intros absent malformed token. subst absent malformed token. simpl.
  assert (forall t, auth = Some ("Bearer " ++ t) ->
            ~ (auth = None \/ auth = Some "")) as Htok_abs.
  { intros t -> [H|H]; discriminate. }
  assert (forall t h, auth = Some ("Bearer " ++ t) -> t <> "" ->
            auth = Some h ->
            ~ (startsWith "Bearer " h = false \/ h = "Bearer ")) as Htok_mal.
  { intros t h Ht Hne Hh. rewrite Ht in Hh. apply Some_inj in Hh. subst h.
    apply not_malformed, Hne. }
  split; [|split].
  - intros Habs. split.
    + intros (h & Hh & Hne & _). destruct Habs as [H|H]; congruence.
    + intros t [Ht _]. exact (Htok_abs t Ht Habs).
  - intros (h & Hh & Hne & Hm). split.
    + intros [H|H]; congruence.
    + intros t [Ht Htne]. exact (Htok_mal t h Ht Htne Hh Hm).
  - intros t [Ht Hne]. split; [exact (Htok_abs t Ht)|]. split.
    + intros (h & Hh & _ & Hm). exact (Htok_mal t h Ht Hne Hh Hm).
    + intros t' [Ht' _]. exact (same_token auth t t' Ht Ht').
Qed.

(** X5.  What the middleware does tells the cause apart.  Each of its five
    answers, and the call of [next()], happens for exactly one kind of
    request: header missing or empty; header without the prefix or without a
    token; verifier threw TokenExpiredError; verifier threw
    JsonWebTokenError; verifier threw anything else; verifier returned. *)
Theorem gate_outcome_tells_cause (req : Request) (now : Z) :
  let auth := headers req !! "authorization" in
  let outcome := snd (gate req now) in
  let threw (P : string -> Prop) :=
    exists t name, auth = Some ("Bearer " ++ t) /\ t <> "" /\
                   jwt_verify t secret now = Thrown name /\ P name in
  (outcome = Reply (message 401 "No token provided")
     <-> auth = None \/ auth = Some "")
  /\ (outcome = Reply (message 401 "Invalid token format. Use Bearer <token>")
     <-> exists h, auth = Some h /\ h <> "" /\
                   (startsWith "Bearer " h = false \/ h = "Bearer "))
  /\ (outcome = Reply (message 401 "Token has expired")
     <-> threw (fun name => name = "TokenExpiredError"))
  /\ (outcome = Reply (message 401 "Invalid token")
     <-> threw (fun name => name = "JsonWebTokenError"))
  /\ (outcome = Reply (message 401 "Token verification failed")
     <-> threw (fun name => name <> "TokenExpiredError" /\
                            name <> "JsonWebTokenError"))
  /\ (forall q, outcome = Next q
     <-> exists t d, auth = Some ("Bearer " ++ t) /\ t <> "" /\
                     jwt_verify t secret now = Returned d /\
                     q = mkRequest (headers req) (body req) (Some d)).
Proof.
  intros auth outcome threw. subst outcome threw. unfold gate.
  destruct (carrier_kinds_exclusive auth) as (Xabs & Xmal & Xtok).
  destruct (verifyToken_cases jwt_verify env req now)
    as [[Hf E]|[(h & Hh & Hne & Hm & E)|[(t & name & Hh & Hne & Hv & E)|
        (t & d & Hh & Hne & Hv & E)]]]; rewrite E; cbn [snd].
  - assert (auth = None \/ auth = Some "") as Habs.
    { unfold auth. destruct (headers req !! "authorization") as [h|];
        [right | left; reflexivity].
      simpl in Hf. apply String.eqb_eq in Hf. congruence. }
    destruct (Xabs Habs) as [Nmal Ntok].
    assert (forall t, auth = Some ("Bearer " ++ t) -> t <> "" -> False) as No
      by (intros t Ht Hne; exact (Ntok t (conj Ht Hne))).
    split; [tauto|].
    split; [split; [intros [= H]; apply message_inj in H; discriminate
                   | intros H; destruct (Nmal H)]|].
    repeat (split; [split; [intros [= H]; apply message_inj in H; discriminate
                           | intros (t & name & Ht & Hne & _);
                             destruct (No t Ht Hne)]|]).
    intros q. split; [discriminate|].
    intros (t & d & Ht & Hne & _). destruct (No t Ht Hne).
  - assert (exists h, auth = Some h /\ h <> "" /\
              (startsWith "Bearer " h = false \/ h = "Bearer ")) as Hmal
      by eauto.
    destruct (Xmal Hmal) as [Nabs Ntok].
    assert (forall t, auth = Some ("Bearer " ++ t) -> t <> "" -> False) as No
      by (intros t Ht Htne; exact (Ntok t (conj Ht Htne))).
    split; [split; [intros [= H]; apply message_inj in H; discriminate
                   | intros H; destruct (Nabs H)]|].
    split; [tauto|].
    repeat (split; [split; [intros [= H]; apply message_inj in H; discriminate
                           | intros (t & name & Ht & Htne & _);
                             destruct (No t Ht Htne)]|]).
    intros q. split; [discriminate|].
    intros (t & d & Ht & Htne & _). destruct (No t Ht Htne).
  - destruct (Xtok t (conj Hh Hne)) as (Nabs & Nmal & Uniq).
    destruct (rejection_cases name) as (R1 & R2 & R3 & R4 & R5).
    assert (forall t' name', auth = Some ("Bearer " ++ t') -> t' <> "" ->
              jwt_verify t' secret now = Thrown name' -> name' = name) as Same.
    { intros t' name' Ht' Hne' Hv'. rewrite (Uniq t' (conj Ht' Hne')) in Hv'.
      unfold secret in Hv'. congruence. }
    split; [split; [intros [= H]; destruct (R4 H) | intros H; destruct (Nabs H)]|].
    split; [split; [intros [= H]; destruct (R5 H) | intros H; destruct (Nmal H)]|].
    split; [split; [intros [= H]; apply R1 in H; exists t, name; auto
                   | intros (t' & name' & Ht' & Hne' & Hv' & HP);
                     rewrite (Same t' name' Ht' Hne' Hv') in HP;
                     f_equal; apply R1, HP]|].
    split; [split; [intros [= H]; apply R2 in H; exists t, name; auto
                   | intros (t' & name' & Ht' & Hne' & Hv' & HP);
                     rewrite (Same t' name' Ht' Hne' Hv') in HP;
                     f_equal; apply R2, HP]|].
    split; [split; [intros [= H]; apply R3 in H; exists t, name; auto
                   | intros (t' & name' & Ht' & Hne' & Hv' & HP);
                     rewrite (Same t' name' Ht' Hne' Hv') in HP;
                     f_equal; apply R3, HP]|].
    intros q. split; [discriminate|].
    intros (t' & d & Ht' & Hne' & Hv' & _).
    rewrite (Uniq t' (conj Ht' Hne')) in Hv'. unfold secret in Hv'. congruence.
  - destruct (Xtok t (conj Hh Hne)) as (Nabs & Nmal & Uniq).
    assert (forall t' name', auth = Some ("Bearer " ++ t') -> t' <> "" ->
              jwt_verify t' secret now = Thrown name' -> False) as No.
    { intros t' name' Ht' Hne' Hv'. rewrite (Uniq t' (conj Ht' Hne')) in Hv'.
      unfold secret in Hv'. congruence. }
    split; [split; [discriminate | intros H; destruct (Nabs H)]|].
    split; [split; [discriminate | intros H; destruct (Nmal H)]|].
    repeat (split; [split; [discriminate
                           | intros (t' & name' & Ht' & Hne' & Hv' & _);
                             destruct (No t' name' Ht' Hne' Hv')]|]).
    intros q. split.
    + intros [= <-]. exists t, d. auto.
    + intros (t' & d' & Ht' & Hne' & Hv' & ->).
      rewrite (Uniq t' (conj Ht' Hne')) in Hv'. unfold secret in Hv'.
      congruence.
Qed.

(** X6.  The decision of the middleware rests on the Authorization header alone:
    two requests with the same header make the same calls of the verifier
    and get the same answer, or both go on, each with its own headers and
    body and with the same claims attached. *)
Theorem gate_reads_only_authorization (req req' : Request) (now : Z) :
  headers req !! "authorization" = headers req' !! "authorization" ->
  fst (gate req now) = fst (gate req' now)
  /\ match snd (gate req now), snd (gate req' now) with
     | Reply res, Reply res' => res = res'
     | Next q, Next q' =>
       user q = user q' /\ is_Some (user q)
       /\ headers q = headers req /\ body q = body req
       /\ headers q' = headers req' /\ body q' = body req'
     | _, _ => False
     end.
Proof.
  intros Hsame. unfold gate, verifyToken. rewrite <- Hsame.
  destruct (falsy (headers req !! "authorization")); [split; reflexivity|].
  destruct (falsy (headers req !! "authorization" ≫= bearer));
    [split; reflexivity|].
  cbn [fst snd]. split; [reflexivity|].
  destruct (jwt_verify _ _ _) as [d|name]; [|reflexivity].
  simpl. repeat split. eexists. reflexivity.
Qed.

End GateFacts.

(** ** The login route and the handlers *)

Section RouteFacts.

Variable jwt_sign : JsObject -> string -> string -> Z -> string.
Variable jwt_verify : string -> string -> Z -> VerifyResult.
Variable toISOString : Z -> string.
Variable env : gmap string string.

(** The login route reads the username and the password of the body and
    nothing else of the request: headers, other properties of the body and
    [req.user] do not change its answer. *)
Theorem login_reads_only_credentials (req req' : Request) (now : Z) :
  prop (body req) "username" = prop (body req') "username" ->
  prop (body req) "password" = prop (body req') "password" ->
  login jwt_sign env req now = login jwt_sign env req' now.
Proof. intros Hu Hp. unfold login. rewrite Hu, Hp. reflexivity. Qed.

(** X7.  A token leaves the login route only with the 200: the answer has a
    [token] property exactly when the username is "admin" and the password
    "password123", the token is then the one signed for the demo user under
    the server's secret with the one-hour option, and the 400 and the 401
    carry none. *)
Theorem token_only_for_valid_credentials (req : Request) (now : Z) :
  let res := login jwt_sign env req now in
  let valid := prop (body req) "username" = JStr "admin" /\
               prop (body req) "password" = JStr "password123" in
  (is_Some (json res !! "token") <-> valid)
  /\ (valid ->
      status res = 200 /\
      json res !! "token" =
        Some (JStr (jwt_sign {[ "id" := JNum 1; "username" := JStr "admin";
                                "email" := JStr "admin@example.com" ]}
                             (JWT_SECRET env) "1h" now)))
  /\ (~ valid ->
      json res !! "token" = None /\ (status res = 400 \/ status res = 401)).
Proof.
  intros res valid. subst res valid.
  pose proof (login_cases jwt_sign env req now) as Hc. cbv zeta in Hc.
  destruct Hc as [[Hf E]|[(Hu & Hp & E)|(Hu & Hp & Hne & E)]]; rewrite E.
  - assert (~ (prop (body req) "username" = JStr "admin" /\
               prop (body req) "password" = JStr "password123")) as Hn.
    { intros [Eu Ep]. rewrite Eu, Ep in Hf. destruct Hf; discriminate. }
    split; [split; [intros [v H]; discriminate | intros H; destruct (Hn H)]|].
    split; [intros H; destruct (Hn H)|]. intros _. split; [reflexivity | auto].
  - split; [split; [auto | intros _; eexists; reflexivity]|].
    split; [intros _; split; reflexivity|]. intros Hn. destruct Hn. auto.
  - split; [split; [intros [v H]; discriminate | intros H; destruct (Hne H)]|].
    split; [intros H; destruct (Hne H)|]. intros _. split; [reflexivity | auto].
Qed.

(** X8.  A protected route that does not answer 200 answers a 401 whose body is
    a message and nothing else, one of the five messages of the
    middleware. *)
Theorem rejections_carry_only_a_message
    (route : Route) (req : Request) (now : Z) :
  let res := snd (protected jwt_verify toISOString env route req now) in
  status res = 200
  \/ exists text,
       res = message 401 text /\
       In text ["No token provided";
                "Invalid token format. Use Bearer <token>";
                "Token has expired"; "Invalid token";
                "Token verification failed"].
Proof.
  intros res. subst res. unfold protected.
  destruct (verifyToken_cases jwt_verify env req now)
    as [[_ ->]|[(h & _ & _ & _ & ->)|[(t & name & _ & _ & _ & ->)|
        (t & d & _ & _ & _ & ->)]]]; cbn [snd].
  - right. eexists. split; [reflexivity|]. simpl. auto.
  - right. eexists. split; [reflexivity|]. simpl. auto.
  - right. unfold rejection.
    destruct (String.eqb name "TokenExpiredError");
      [|destruct (String.eqb name "JsonWebTokenError")];
      eexists; (split; [reflexivity|]); simpl; auto 10.
  - left. destruct route; reflexivity.
Qed.

(** X9.  The protected handlers do not check the shape of the claims: for a
    token that verifies, each of [id], [username] and [email] that the
    decoded payload lacks (an object without the property, or a string
    payload) comes out as [undefined], and the answer is still a 200. *)
Theorem handlers_tolerate_missing_claims
    (req : Request) (now : Z) (t : string) (d : Decoded) :
  headers req !! "authorization" = Some ("Bearer " ++ t) ->
  t <> "" ->
  jwt_verify t (JWT_SECRET env) now = Returned d ->
  let lacks k := match d with
                 | DecodedObject o => o !! k = None
                 | DecodedString _ => True
                 end in
  let profile := snd (protected jwt_verify toISOString env Profile req now) in
  let data := snd (protected jwt_verify toISOString env UserData req now) in
  status profile = 200 /\ status data = 200
  /\ (exists u, json profile !! "user" = Some (JObj u) /\
        forall k, k = "id" \/ k = "username" \/ k = "email" ->
          lacks k -> u !! k = Some JUndefined)
  /\ (exists u, json data !! "data" = Some (JObj u) /\
        (lacks "id" -> u !! "userId" = Some JUndefined)).
Proof.
  intros Hh Hne Hv lacks profile data. subst profile data.
  assert (forall k, lacks k -> member d k = JUndefined) as Hlacks.
  { intros k. unfold lacks, member, prop. destruct d as [o|s]; [|reflexivity].
    intros ->. reflexivity. }
  unfold protected.
  destruct (verifyToken_cases jwt_verify env req now)
    as [[Hf _]|[(h & Hh' & _ & Hm & _)|[(t' & name & Hh' & _ & Hv' & _)|
        (t' & d' & Hh' & _ & Hv' & ->)]]].
  - rewrite Hh in Hf. simpl in Hf. destruct t; discriminate.
  - rewrite Hh in Hh'. apply Some_inj in Hh'. subst h.
    destruct (not_malformed t Hne Hm).
  - rewrite (same_token _ _ _ Hh Hh') in Hv'. congruence.
  - rewrite (same_token _ _ _ Hh Hh') in Hv'.
    assert (d' = d) as -> by congruence.
    simpl. split; [reflexivity|]. split; [reflexivity|]. split.
    + eexists. split; [reflexivity|].
      intros k [->|[->| ->]] Hk; rewrite <- (Hlacks _ Hk); by simplify_map_eq.
    + eexists. split; [reflexivity|].
      intros Hk. rewrite <- (Hlacks _ Hk). by simplify_map_eq.
Qed.

End RouteFacts.

(** X10.  The global error handler answers 500 "Internal server error" and shows
    the message of the error only when [NODE_ENV] is exactly "development";
    in any other environment, unset included, the [error] property is
    [undefined]. *)
Theorem error_detail_only_in_development
    (env : gmap string string) (err_message : string) :
  let res := errorHandler env err_message in
  status res = 500
  /\ json res !! "message" = Some (JStr "Internal server error")
  /\ (json res !! "error" = Some (JStr err_message)
     <-> env !! "NODE_ENV" = Some "development")
  /\ (env !! "NODE_ENV" <> Some "development" ->
      json res !! "error" = Some JUndefined).
Proof.
  intros res. subst res. unfold errorHandler. cbn [status json].
  split; [reflexivity|]. split; [by simplify_map_eq|].
  rewrite lookup_insert_ne, lookup_singleton_eq by discriminate.
  destruct (env !! "NODE_ENV") as [mode|] eqn:E.
  - destruct (String.eqb mode "development") eqn:Em.
    + apply String.eqb_eq in Em. subst mode. split; [tauto|].
      intros H. contradiction.
    + assert (mode <> "development") as Hne
        by (intros ->; rewrite String.eqb_refl in Em; discriminate).
      assert (match mode with
              | "development" => JStr err_message
              | _ => JUndefined
              end = JUndefined) as ->.
      { clear -Hne.
        repeat (destruct mode as [|[[] [] [] [] [] [] [] []] mode];
                try reflexivity).
        contradiction. }
      split; [|reflexivity]. split; [discriminate | congruence].
  - split; [|reflexivity]. split; discriminate.
Qed.

(** ** The further properties at sample inputs *)

Lemma secret_never_empty_witness :
  JWT_SECRET {[ "JWT_SECRET" := "s3cret" ]} = "s3cret".
Proof.
  apply (proj1 (proj2 (secret_never_empty {[ "JWT_SECRET" := "s3cret" ]}))).
  - reflexivity.
  - discriminate.
Defined.

Lemma verifier_called_once_on_bearer_token_witness :
  JWT_SECRET ∅ = JWT_SECRET ∅ /\ "abc" <> "" /\
  headers (bearer_request "Bearer abc") !! "authorization"
    = Some ("Bearer " ++ "abc").
Proof.
  apply (proj2 (verifier_called_once_on_bearer_token Jwt.verify_bits ∅
                  (bearer_request "Bearer abc") 0)).
  apply list_elem_of_singleton. reflexivity.
Defined.

Lemma gate_reads_only_authorization_witness :
  fst (verifyToken Jwt.verify_bits ∅ (bearer_request "Bearer abc") 0)
    = fst (verifyToken Jwt.verify_bits ∅ (busy_request "Bearer abc") 0).
Proof.
  apply (gate_reads_only_authorization Jwt.verify_bits ∅
           (bearer_request "Bearer abc") (busy_request "Bearer abc") 0).
  reflexivity.
Defined.

Lemma token_only_for_valid_credentials_witness :
  status (login Jwt.sign_bits ∅
            (login_request (JStr "admin") (JStr "password123")) 0) = 200.
Proof.
  apply (proj1 (proj2 (token_only_for_valid_credentials Jwt.sign_bits ∅
           (login_request (JStr "admin") (JStr "password123")) 0))).
  split; reflexivity.
Defined.

Lemma handlers_tolerate_missing_claims_witness :
  status (snd (protected string_payload epoch ∅ Profile
                 (bearer_request "Bearer abc") 0)) = 200.
Proof.
  apply (handlers_tolerate_missing_claims string_payload epoch ∅
           (bearer_request "Bearer abc") 0 "abc" (DecodedString "hello")).
  - reflexivity.
  - discriminate.
  - reflexivity.
Defined.

Lemma error_detail_only_in_development_witness :
  json (errorHandler ∅ "boom") !! "error" = Some JUndefined.
Proof.
  apply (error_detail_only_in_development ∅ "boom"). discriminate.
Defined.

(** ** The integrity of the signature at sample tokens *)

Section IntegritySamples.

#[local] Existing Instance Jwt.bits_header.
#[local] Existing Instance Jwt.bits_payload.
#[local] Existing Instance Jwt.bits_mac.
#[local] Existing Instance bits_header_laws.
#[local] Existing Instance bits_payload_laws.
#[local] Existing Instance bits_mac_laws.
#[local] Existing Instance bits_mac_collision_free.

Let header : string := Jwt.seg_encode Jwt.fixed_header.
Let payload : string := Jwt.seg_encode (Jwt.mkPayload admin_claims 3600).
Let signature : string := Jwt.mac default_secret (Jwt.unsigned header payload).



End IntegritySamples.
